(** * Stopwatch: a shallow embedding of [stopwatch.py]

    The class [Stopwatch] keeps three attributes ([start_time], [times],
    [stop_time]), reads the wall clock ([datetime.now()]), prints notices and
    hands a scatter plot and a data frame to the notebook.  Each method is
    embedded as a computation over a [World] that carries the object, the
    clock, the standard output and what has been displayed; an exception is
    an outcome of the computation and does not roll the world back. *)

From Stdlib Require Import ZArith QArith List String Bool Lia.
From Stdlib Require Import DecimalString DecimalNat.
From Stdlib Require Import Sorted FinFun.
Import ListNotations.
Open Scope string_scope.
Open Scope Z_scope.

(** ** Data model *)

(** A naive [datetime], counted in microseconds (its resolution). *)
Definition datetime := Z.

(** A [timedelta], in microseconds: the difference of two [datetime]s. *)
Definition timedelta := Z.

(** An element of [times]: the tuple [(label, datetime_object)]. *)
Definition entry := (string * datetime)%type.

Record Stopwatch := mkStopwatch {
  start_time : option datetime;
  times : list entry;
  stop_time : option datetime
}.

Inductive exn :=
| Exception (msg : string)
| TypeError (msg : string)
| IndexError (msg : string).

Inductive outcome (A : Type) :=
| Return (a : A)
| Raise (e : exn).
Arguments Return {A} a.
Arguments Raise {A} e.

(** An x-coordinate handed to matplotlib: either [td.total_seconds()] of a
    [timedelta] (kept as the exact microsecond count) or a raw [datetime]. *)
Inductive xcoord :=
| Seconds (td : timedelta)
| Instant (t : datetime).

Definition point := (xcoord * Q)%type.

(** What one call of [display_laps] draws on its axes. *)
Record Plot := mkPlot {
  plot_styles : list string;
  plot_figsize : Z * Z;
  plot_xlabel : string;
  plot_x : list xcoord;
  plot_y : list Q;
  plot_annotations : list (string * point * point);
  plot_vlines : list xcoord
}.

(** The frame built by [pd.DataFrame(times, columns=['Label', 'Timestamp'])],
    with the optional column ['Elapsed Time (sec)']. *)
Record DataFrame := mkDataFrame {
  df_rows : list entry;
  df_elapsed : option (list xcoord)
}.

Inductive shown :=
| ShowFrame (df : DataFrame)
| ShowPlot (p : Plot).

(** The object together with everything its methods touch.  [clock n] is the
    reading the [n]-th next call of [datetime.now()] returns. *)
Record World := mkWorld {
  self : Stopwatch;
  clock : nat -> datetime;
  stdout : list string;
  displayed : list shown
}.

(** ** Computations *)

Definition M (A : Type) := World -> outcome A * World.

Definition ret {A} (a : A) : M A := fun w => (Return a, w).

Definition raise {A} (e : exn) : M A := fun w => (Raise e, w).

Definition bind {A B} (m : M A) (k : A -> M B) : M B :=
  fun w =>
    match m w with
    | (Return a, w') => k a w'
    | (Raise e, w') => (Raise e, w')
    end.

Declare Scope stopwatch_scope.
Delimit Scope stopwatch_scope with sw.
Notation "x <- m ;; k" := (bind m (fun x => k))
  (at level 100, m at next level, right associativity) : stopwatch_scope.
Notation "m ;; k" := (bind m (fun _ => k))
  (at level 100, right associativity) : stopwatch_scope.
Open Scope stopwatch_scope.

(** The world a computation leaves behind, whatever its outcome. *)
Definition after {A} (m : M A) (w : World) : World := snd (m w).

Definition result {A} (m : M A) (w : World) : outcome A := fst (m w).

Definition lift {A} (o : outcome A) : M A := fun w => (o, w).

Definition get_self : M Stopwatch := fun w => (Return (self w), w).

Definition put_self (s : Stopwatch) : M unit :=
  fun w => (Return tt, mkWorld s (clock w) (stdout w) (displayed w)).

(** [self.start_time = v] *)
Definition set_start_time (v : option datetime) : M unit :=
  s <- get_self ;; put_self (mkStopwatch v (times s) (stop_time s)).

(** [self.times = v] *)
Definition set_times (v : list entry) : M unit :=
  s <- get_self ;; put_self (mkStopwatch (start_time s) v (stop_time s)).

(** [self.stop_time = v] *)
Definition set_stop_time (v : option datetime) : M unit :=
  s <- get_self ;; put_self (mkStopwatch (start_time s) (times s) v).

(** [self.times.append(e)] *)
Definition times_append (e : entry) : M unit :=
  s <- get_self ;;
  put_self (mkStopwatch (start_time s) (times s ++ [e]) (stop_time s)).

(** [datetime.now()]: the next reading of the clock. *)
Definition datetime_now : M datetime :=
  fun w =>
    (Return (clock w 0%nat),
     mkWorld (self w) (fun n => clock w (S n)) (stdout w) (displayed w)).

(** [print(line)] *)
Definition print (line : string) : M unit :=
  fun w =>
    (Return tt, mkWorld (self w) (clock w) (stdout w ++ [line]) (displayed w)).

(** [display(df)] and [plt.show()] *)
Definition show (x : shown) : M unit :=
  fun w =>
    (Return tt, mkWorld (self w) (clock w) (stdout w) (displayed w ++ [x])).

(** ** Python truth values *)

(** [bool(l)] of a list. *)
Definition truthy_list {A} (l : list A) : bool :=
  match l with
  | [] => false
  | _ :: _ => true
  end.

(** [bool(x)] of an attribute that holds [None] or a [datetime]; a
    [datetime] is always true. *)
Definition truthy_datetime (x : option datetime) : bool :=
  match x with
  | Some _ => true
  | None => false
  end.

(** [if not label: label = dflt], for an argument that is [None] or a
    [str]: [None] and the empty string are false. *)
Definition label_or (label : option string) (dflt : string) : string :=
  match label with
  | Some (String c l) => String c l
  | Some EmptyString => dflt
  | None => dflt
  end.

(** [str(n)] of a length. *)
Definition str_of_nat (n : nat) : string :=
  NilEmpty.string_of_uint (Nat.to_uint n).

(** ** The methods of [Stopwatch] *)

Definition msg_please_reset : string :=
  "Please reset timer using .reset() or set force_reset=True.".

(** The body of [__init__], with its call [self.start()] left open: [reset]
    and [start] call each other through [__init__]. *)
Definition init_with (start_default : M unit) (auto_start : bool) : M unit :=
  set_start_time None ;;
  set_times [] ;;
  set_stop_time None ;;
  if auto_start then start_default else ret tt.

(** [reset]: [self.__init__(auto_start=False)].  With [auto_start] false the
    call [self.start()] is not reached. *)
Definition reset : M unit := init_with (ret tt) false.

Definition start (force_reset : bool) : M unit :=
  s <- get_self ;;
  if truthy_list (times s) && negb force_reset
  then raise (Exception msg_please_reset)
  else
    (if force_reset then reset else ret tt) ;;
    t <- datetime_now ;;
    set_start_time (Some t) ;;
    (* [self.start_time] has just been assigned [t] *)
    times_append ("Start", t).

(** [__init__(self, auto_start=True)]; [self.start()] takes the default
    [force_reset=True]. *)
Definition __init__ (auto_start : bool) : M unit :=
  init_with (start true) auto_start.

Definition lap (label : option string) : M unit :=
  s <- get_self ;;
  let label' := label_or label ("Lap" ++ str_of_nat (List.length (times s))) in
  t <- datetime_now ;;
  times_append (label', t).

Definition msg_not_started : string := "Timer not started.".

Definition stop : M unit :=
  s <- get_self ;;
  if negb (truthy_datetime (start_time s))
  then print msg_not_started
  else
    t <- datetime_now ;;
    set_stop_time (Some t) ;;
    times_append ("Stop", t).

Definition elapsed_time_ : M (option timedelta) :=
  s <- get_self ;;
  match stop_time s, start_time s with
  | Some b, Some a => ret (Some (b - a))
  | _, _ => ret None
  end.

(** ** Rendering: [display_laps] *)

Record Options := mkOptions {
  figsize : Z * Z;
  mark_elapsed_time : bool;
  show_stop : bool;
  annotate : bool;
  verbose : bool;
  vlines : bool;
  styles : list string
}.

(** The defaults of the signature of [display_laps]. *)
Definition default_options : Options :=
  mkOptions (8, 4) true true true true true ["ggplot"; "seaborn-talk"].

(** A list comprehension whose element expression can raise: elements are
    evaluated from left to right and the first exception ends it. *)
Fixpoint comprehension {A B} (f : A -> outcome B) (l : list A)
  : outcome (list B) :=
  match l with
  | [] => Return []
  | a :: l' =>
      match f a with
      | Raise e => Raise e
      | Return b =>
          match comprehension f l' with
          | Raise e => Raise e
          | Return bs => Return (b :: bs)
          end
      end
  end.

Definition msg_sub_none : string :=
  "unsupported operand type(s) for -: 'datetime.datetime' and 'NoneType'".

(** [a - b] where [a] is a [datetime] and [b] an attribute that may still be
    [None]. *)
Definition datetime_sub (a : datetime) (b : option datetime)
  : outcome timedelta :=
  match b with
  | Some b' => Return (a - b')
  | None => Raise (TypeError msg_sub_none)
  end.

(** [(e[1] - start).total_seconds()] *)
Definition elapsed_seconds (start : option datetime) (e : entry)
  : outcome xcoord :=
  match datetime_sub (snd e) start with
  | Return td => Return (Seconds td)
  | Raise ex => Raise ex
  end.

(** [l[i]] *)
Definition index {A} (l : list A) (i : nat) : outcome A :=
  match nth_error l i with
  | Some a => Return a
  | None => Raise (IndexError "list index out of range")
  end.

(** [enumerate(l)], counting from [i]. *)
Fixpoint enumerate_from {A} (i : nat) (l : list A) : list (nat * A) :=
  match l with
  | [] => []
  | a :: l' => (i, a) :: enumerate_from (S i) l'
  end.

Definition enumerate {A} (l : list A) : list (nat * A) := enumerate_from 0 l.

(** One [plt.annotate(label, (x[i], y[i]), xytext=(x[i], y[i]+0.005))]. *)
Definition annotation (x : list xcoord) (y : list Q) (it : nat * entry)
  : outcome (string * point * point) :=
  match index x (fst it) with
  | Raise e => Raise e
  | Return xi =>
      match index y (fst it) with
      | Raise e => Raise e
      | Return yi => Return (fst (snd it), (xi, yi), (xi, (yi + (5 # 1000))%Q))
      end
  end.

Definition msg_no_times : string := "No times to display.".

(** The entries [display_laps] works on: [self.times] or [self.times[:-1]]. *)
Definition selected (show_stop : bool) (ts : list entry) : list entry :=
  if show_stop then ts else removelast ts.

(** [display_laps].  The notebook is taken to do its part: the styles are
    known to matplotlib, [display] is the notebook's, and drawing and
    showing do not fail; what can raise is the code's own arithmetic and
    indexing.  A plot reaches [displayed] at [plt.show()], after the frame. *)
Definition display_laps (o : Options) : M unit :=
  s <- get_self ;;
  if negb (truthy_list (times s))
  then print msg_no_times
  else
    let times' := selected (show_stop o) (times s) in
    x <- (if mark_elapsed_time o
          then lift (comprehension (elapsed_seconds (start_time s)) times')
          else ret (map (fun a => Instant (snd a)) times')) ;;
    let xlabel :=
      if mark_elapsed_time o then "Elapsed Time (sec)" else "Time Recorded" in
    let y := map (fun _ => 0%Q) x in
    notes <- (if annotate o
              then lift (comprehension (annotation x y) (enumerate times'))
              else ret []) ;;
    let lines :=
      if vlines o
      then (if mark_elapsed_time o
            then x
            else map (fun i => Instant (snd i)) times')
      else [] in
    (if verbose o
     then show (ShowFrame
                  (mkDataFrame times'
                     (if mark_elapsed_time o then Some x else None)))
     else ret tt) ;;
    show (ShowPlot (mkPlot (styles o) (figsize o) xlabel x y notes lines)).

(** ** Sequences of calls *)

(** A call on the object.  [CallInit] is [__init__] run again on it, which
    leaves what a new construction would. *)
Inductive call :=
| CallInit (auto_start : bool)
| CallStart (force_reset : bool)
| CallLap (label : option string)
| CallStop
| CallReset.

Definition invoke (c : call) : M unit :=
  match c with
  | CallInit auto_start => __init__ auto_start
  | CallStart force_reset => start force_reset
  | CallLap label => lap label
  | CallStop => stop
  | CallReset => reset
  end.

(** The world after a sequence of calls; a caller that catches the exception
    of [start] goes on with the object as the failed call left it. *)
Fixpoint run (cs : list call) (w : World) : World :=
  match cs with
  | [] => w
  | c :: cs' => run cs' (after (invoke c) w)
  end.

(** [Stopwatch(auto_start)] followed by the calls [cs]. *)
Definition session (auto_start : bool) (cs : list call) (w : World) : World :=
  run cs (after (__init__ auto_start) w).

(** A world to start from: nothing printed or displayed yet, the clock
    reading [0, 1, 2, ...]. *)
Definition world0 : World :=
  mkWorld (mkStopwatch None [] None) (fun n => Z.of_nat n) [] [].

(** ** Notions the properties are stated with *)

(** The x-coordinate of an entry: seconds since [t0], or the raw timestamp. *)
Definition x_of (mark_elapsed_time : bool) (t0 : datetime) (e : entry) : xcoord :=
  if mark_elapsed_time then Seconds (snd e - t0) else Instant (snd e).

(** The annotation of one entry at its own point. *)
Definition annotated (h : entry -> xcoord) (e : entry) : string * point * point :=
  (fst e, (h e, 0%Q), (h e, (0 + (5 # 1000))%Q)).

(** The plot and the frame [display_laps] is to show for the entries [sel]. *)
Definition drawn (o : Options) (t0 : datetime) (sel : list entry) : Plot :=
  mkPlot (styles o) (figsize o)
    (if mark_elapsed_time o then "Elapsed Time (sec)" else "Time Recorded")
    (map (x_of (mark_elapsed_time o) t0) sel)
    (map (fun _ => 0%Q) sel)
    (if annotate o then map (annotated (x_of (mark_elapsed_time o) t0)) sel else [])
    (if vlines o then map (x_of (mark_elapsed_time o) t0) sel else []).

Definition tabulated (o : Options) (t0 : datetime) (sel : list entry) : DataFrame :=
  mkDataFrame sel
    (if mark_elapsed_time o
     then Some (map (x_of (mark_elapsed_time o) t0) sel)
     else None).

(** The options of [display_laps(show_stop=False)]. *)
Definition without_stop : Options :=
  mkOptions (8, 4) true false true true true ["ggplot"; "seaborn-talk"].

(** Once [start_time] is set, [times] opens with the ["Start"] entry that
    carries it. *)
Definition started_at_head (s : Stopwatch) : Prop :=
  forall t, start_time s = Some t -> exists rest, times s = ("Start", t) :: rest.

(** The timestamp of the first entry of [times], if there is one. *)
Definition first_timestamp (s : Stopwatch) : option datetime :=
  option_map snd (hd_error (times s)).

(** A computation that leaves the object as it found it. *)
Definition preserves_self {A} (m : M A) : Prop :=
  forall w, self (after m w) = self w.

(** ** Notions the properties of whole sessions are stated with *)

(** The clock once a reading has been taken. *)
Definition tick (c : nat -> datetime) : nat -> datetime := fun n => c (S n).

(** A clock that never goes back. *)
Definition monotone (c : nat -> datetime) : Prop := forall n, c n <= c (S n).

(** [times] in chronological order. *)
Definition chronological (ts : list entry) : Prop :=
  StronglySorted Z.le (map snd ts).

(** Once [stop_time] is set, [start_time] is set as well and [times] holds the
    ["Stop"] entry that carries it. *)
Definition stopped_after_start (s : Stopwatch) : Prop :=
  forall t, stop_time s = Some t ->
            (exists t0, start_time s = Some t0) /\ In ("Stop", t) (times s).

Definition consistent (s : Stopwatch) : Prop :=
  started_at_head s /\ stopped_after_start s.

(** The entries the calls [lap(l)], for [l] in [ls], append to a [times] of
    length [n] when the clock reads [c]. *)
Fixpoint lap_entries (n : nat) (c : nat -> datetime) (ls : list (option string))
  : list entry :=
  match ls with
  | [] => []
  | l :: ls' =>
      (label_or l ("Lap" ++ str_of_nat n), c 0%nat)
      :: lap_entries (S n) (tick c) ls'
  end.

(** The calls that do not go through [__init__]: [start(force_reset=False)],
    [lap] and [stop]. *)
Definition keeps_history (c : call) : bool :=
  match c with
  | CallStart force_reset => negb force_reset
  | CallLap _ => true
  | CallStop => true
  | CallInit _ => false
  | CallReset => false
  end.

(** A world whose clock never goes back and whose [times] is in order and
    not ahead of the clock. *)
Definition in_order (w : World) : Prop :=
  monotone (clock w) /\
  chronological (times (self w)) /\
  Forall (fun e => snd e <= clock w 0%nat) (times (self w)).

(** * Properties *)

(** ** Reading decimal labels back *)

(** [str_of_nat] writes the decimal numeral of its argument. *)
Lemma str_of_nat_reads_back (n : nat) :
  option_map Nat.of_uint (NilEmpty.uint_of_string (str_of_nat n)) = Some n.
Proof.
  unfold str_of_nat.
  rewrite NilEmpty.usu. simpl.
  now rewrite DecimalNat.Unsigned.of_to.
Qed.

(** ** [reset] and [__init__] *)

Lemma reset_is_init_false : reset = __init__ false.
Proof. reflexivity. Qed.

Lemma reset_run (w : World) :
  reset w =
  (Return tt, mkWorld (mkStopwatch None [] None) (clock w) (stdout w) (displayed w)).
Proof. reflexivity. Qed.

Lemma start_run (force_reset : bool) (w : World) :
  truthy_list (times (self w)) && negb force_reset = false ->
  start force_reset w =
  (Return tt,
   mkWorld
     (mkStopwatch (Some (clock w 0%nat))
        ((if force_reset then [] else times (self w)) ++ [("Start", clock w 0%nat)])
        (if force_reset then None else stop_time (self w)))
     (fun n => clock w (S n)) (stdout w) (displayed w)).
Proof.
  intros H. unfold start, bind at 1. cbn [get_self].
  rewrite H. destruct force_reset; reflexivity.
Qed.

(** C1: on a stopwatch whose [times] is not empty, [start(force_reset=False)]
    raises the exception and leaves [start_time], [stop_time] and [times]
    (indeed the whole world) as they were. *)
Theorem start_without_reset_on_used_raises (w : World) :
  times (self w) <> [] ->
  result (start false) w = Raise (Exception msg_please_reset) /\
  after (start false) w = w /\
  start_time (self (after (start false) w)) = start_time (self w) /\
  stop_time (self (after (start false) w)) = stop_time (self w) /\
  times (self (after (start false) w)) = times (self w).
Proof.
  intros Hne.
  assert (E : start false w = (Raise (Exception msg_please_reset), w)).
  { unfold start, bind, get_self.
    destruct (times (self w)) as [|e ts]; [congruence|reflexivity]. }
  unfold result, after. rewrite E. cbn. repeat split.
Qed.

Lemma start_without_reset_on_used_raises_witness :
  times (self (session true [] world0)) = [("Start", 0)] /\
  result (start false) (session true [] world0)
  = Raise (Exception msg_please_reset) /\
  after (start false) (session true [] world0) = session true [] world0.
Proof.
  split; [reflexivity|].
  pose proof (start_without_reset_on_used_raises (session true [] world0)) as H.
  split; apply H; vm_compute; discriminate.
Defined.

(** C2: a [lap] whose label is absent or empty appends the entry labelled
    ["Lap"] followed by the length [times] had before the call; a [lap] with
    a label that is not empty appends that label; the timestamp is the
    clock's reading.  The first lap after a plain start is ["Lap1"], a lap
    on a fresh watch that was not started is ["Lap0"]. *)
Theorem lap_appends_labelled_entry (w : World) :
  let n := List.length (times (self w)) in
  let now := clock w 0%nat in
  let appended e :=
    mkStopwatch (start_time (self w)) (times (self w) ++ [e]) (stop_time (self w)) in
  (result (lap None) w = Return tt /\
   self (after (lap None) w) = appended ("Lap" ++ str_of_nat n, now)) /\
  (result (lap (Some "")) w = Return tt /\
   self (after (lap (Some "")) w) = appended ("Lap" ++ str_of_nat n, now)) /\
  (forall c l,
     result (lap (Some (String c l))) w = Return tt /\
     self (after (lap (Some (String c l))) w) = appended (String c l, now)) /\
  times (self (after (lap None) (after (start true) w)))
  = [("Start", clock w 0%nat); ("Lap1", clock w 1%nat)] /\
  times (self (after (lap None) (after (__init__ false) w)))
  = [("Lap0", clock w 0%nat)].
Proof.
  cbv zeta.
  repeat match goal with
         | |- _ /\ _ => split
         | |- forall _, _ => intro
         end; try reflexivity.
  unfold after at 2. rewrite start_run by apply andb_false_r. reflexivity.
Qed.

(** C3: [elapsed_time_] returns [stop_time - start_time] when both are set
    and [None], without raising, as soon as one of them is not; it changes
    nothing. *)
Theorem elapsed_time_difference_or_none (w : World) :
  (forall a b,
     start_time (self w) = Some a -> stop_time (self w) = Some b ->
     elapsed_time_ w = (Return (Some (b - a)), w)) /\
  (start_time (self w) = None \/ stop_time (self w) = None ->
   elapsed_time_ w = (Return None, w)).
Proof.
  unfold elapsed_time_, bind, get_self, ret. split.
  - intros a b Ha Hb. now rewrite Ha, Hb.
  - intros [H|H]; rewrite H; [destruct (stop_time (self w))|]; reflexivity.
Qed.

Lemma elapsed_time_difference_or_none_witness :
  result elapsed_time_ (session true [CallLap None; CallStop] world0)
  = Return (Some 2) /\
  result elapsed_time_ (session true [CallLap None] world0) = Return None.
Proof.
  split.
  - unfold result.
    rewrite (proj1 (elapsed_time_difference_or_none
                      (session true [CallLap None; CallStop] world0)) 0 2);
      reflexivity.
  - unfold result.
    rewrite (proj2 (elapsed_time_difference_or_none
                      (session true [CallLap None] world0)));
      [reflexivity | right; reflexivity].
Defined.

(** C4: [stop] on a stopwatch whose [start_time] is not set prints
    ["Timer not started."] and returns with the object untouched; on one
    whose [start_time] is set it stores the clock's reading in [stop_time]
    and appends [("Stop", stop_time)] to [times]. *)
Theorem stop_notice_or_stop_entry (w : World) :
  (start_time (self w) = None ->
   stop w =
   (Return tt,
    mkWorld (self w) (clock w) (stdout w ++ ["Timer not started."]) (displayed w))) /\
  (forall a, start_time (self w) = Some a ->
   result stop w = Return tt /\
   self (after stop w) =
   mkStopwatch (Some a) (times (self w) ++ [("Stop", clock w 0%nat)])
     (Some (clock w 0%nat)) /\
   stdout (after stop w) = stdout w).
Proof.
  unfold result, after, stop, bind, get_self. split.
  - intros H. rewrite H. reflexivity.
  - intros a H. rewrite H. cbn. rewrite H. repeat split.
Qed.

Lemma stop_notice_or_stop_entry_witness :
  (stdout (after stop (after (__init__ false) world0)) = ["Timer not started."] /\
   self (after stop (after (__init__ false) world0)) = mkStopwatch None [] None) /\
  self (after stop (session true [] world0))
  = mkStopwatch (Some 0) [("Start", 0); ("Stop", 1)] (Some 1).
Proof.
  split.
  - unfold after at 1 3.
    rewrite (proj1 (stop_notice_or_stop_entry (after (__init__ false) world0)));
      [split; reflexivity | reflexivity].
  - destruct (proj2 (stop_notice_or_stop_entry (session true [] world0)) 0)
      as (_ & E & _); [reflexivity | rewrite E; reflexivity].
Defined.

(** C5: [start(force_reset=True)] is a [reset] followed by a plain start:
    whatever the object held before, afterwards [start_time] is the clock's
    reading, [times] is the one entry [("Start", start_time)] and
    [stop_time] is [None]. *)
Theorem start_force_reset_restarts (w : World) :
  start true w = start false (after reset w) /\
  result (start true) w = Return tt /\
  self (after (start true) w) =
  mkStopwatch (Some (clock w 0%nat)) [("Start", clock w 0%nat)] None.
Proof.
  unfold result, after.
  rewrite (start_run true w) by apply andb_false_r.
  repeat split.
Qed.

(** C6: after [reset] the object is the one [Stopwatch(auto_start=False)]
    builds: no [start_time], no [stop_time], empty [times]; this from any
    prior state. *)
Theorem reset_is_fresh_unstarted (w fresh : World) :
  result reset w = Return tt /\
  self (after reset w) = self (after (__init__ false) fresh) /\
  start_time (self (after reset w)) = None /\
  stop_time (self (after reset w)) = None /\
  times (self (after reset w)) = [].
Proof. repeat split. Qed.

(** ** The first entry of [times] *)

Lemma started_at_head_init (auto_start : bool) (w : World) :
  started_at_head (self (after (__init__ auto_start) w)).
Proof.
  destruct auto_start; cbn; intros t H.
  - injection H as <-. now exists [].
  - discriminate.
Qed.

Lemma started_at_head_invoke (c : call) (w : World) :
  started_at_head (self w) -> started_at_head (self (after (invoke c) w)).
Proof.
  intros Inv.
  destruct c as [auto_start|force_reset|label| |];
    [apply started_at_head_init|..]; intros t; unfold after; cbn [invoke].
  - destruct (truthy_list (times (self w)) && negb force_reset) eqn:E.
    + unfold start, bind, get_self. rewrite E. cbn. apply Inv.
    + rewrite start_run by exact E. cbn. intros H. injection H as <-.
      destruct force_reset; [now exists []|].
      rewrite andb_true_r in E.
      destruct (times (self w)); [now exists []|discriminate].
  - cbn. intros H. destruct (Inv t H) as [rest ->].
    eexists. cbn. reflexivity.
  - unfold stop, bind, get_self.
    destruct (start_time (self w)) as [a|] eqn:Ha; cbn.
    + rewrite Ha. intros H. rewrite <- Ha in H.
      destruct (Inv t H) as [rest ->].
      eexists. cbn. reflexivity.
    + rewrite Ha. discriminate.
  - cbn. discriminate.
Qed.

Lemma started_at_head_run (cs : list call) (w : World) :
  started_at_head (self w) -> started_at_head (self (run cs w)).
Proof.
  revert w. induction cs as [|c cs IH]; intros w Inv; cbn [run].
  - exact Inv.
  - apply IH, started_at_head_invoke, Inv.
Qed.

Lemma started_at_head_session (auto_start : bool) (cs : list call) (w : World) :
  started_at_head (self (session auto_start cs w)).
Proof. apply started_at_head_run, started_at_head_init. Qed.

(** C7, as the code has it: in every state a construction followed by calls
    of [start], [lap], [stop] and [reset] leads to, if [times] is not empty
    and [start_time] is set, then [start_time] is the timestamp of the first
    entry of [times]. *)
Theorem start_time_is_first_timestamp_when_set
  (auto_start : bool) (cs : list call) (w0 : World) :
  let w := session auto_start cs w0 in
  times (self w) <> [] ->
  truthy_datetime (start_time (self w)) = true ->
  start_time (self w) = first_timestamp (self w).
Proof.
  cbv zeta. intros _ Hset.
  destruct (start_time (self (session auto_start cs w0))) as [t|] eqn:E;
    [|discriminate].
  destruct (started_at_head_session auto_start cs w0 t E) as [rest Hts].
  unfold first_timestamp. rewrite Hts. reflexivity.
Qed.

Lemma start_time_is_first_timestamp_when_set_witness :
  start_time (self (session true [CallLap None; CallStop] world0)) = Some 0 /\
  first_timestamp (self (session true [CallLap None; CallStop] world0)) = Some 0.
Proof.
  pose proof (start_time_is_first_timestamp_when_set
                true [CallLap None; CallStop] world0) as H.
  cbv zeta in H.
  split; [reflexivity|].
  rewrite <- H; [reflexivity | vm_compute; discriminate | reflexivity].
Defined.

(** C7, as stated, fails: a [lap] on a watch built with [auto_start=False]
    leaves [times] with one entry while [start_time] is still [None]. *)
Lemma lap_before_start_has_no_start_time :
  let w := session false [CallLap None] world0 in
  self w = mkStopwatch None [("Lap0", 0)] None /\
  times (self w) <> [] /\
  start_time (self w) <> first_timestamp (self w).
Proof.
  cbv zeta. split; [reflexivity|]. split; vm_compute; discriminate.
Qed.

(** ** What [display_laps] computes *)

Lemma comprehension_total {A B} (f : A -> outcome B) (g : A -> B) (l : list A) :
  (forall a, In a l -> f a = Return (g a)) ->
  comprehension f l = Return (map g l).
Proof.
  induction l as [|a l IH]; intros H; cbn [comprehension map].
  - reflexivity.
  - rewrite (H a) by (left; reflexivity).
    rewrite IH by (intros b Hb; apply H; right; exact Hb).
    reflexivity.
Qed.

Lemma elapsed_seconds_set (t0 : datetime) (ts : list entry) :
  comprehension (elapsed_seconds (Some t0)) ts
  = Return (map (fun e => Seconds (snd e - t0)) ts).
Proof. apply comprehension_total. reflexivity. Qed.

Lemma elapsed_seconds_unset (e : entry) (ts : list entry) :
  comprehension (elapsed_seconds None) (e :: ts)
  = Raise (TypeError msg_sub_none).
Proof. reflexivity. Qed.

Lemma elapsed_seconds_selected
  (start : option datetime) (t0 : datetime) (sel : list entry) :
  (sel <> [] -> start = Some t0) ->
  comprehension (elapsed_seconds start) sel = Return (map (x_of true t0) sel).
Proof.
  intros H. destruct sel as [|e sel]; [reflexivity|].
  rewrite H by discriminate. apply elapsed_seconds_set.
Qed.

Lemma annotations_from (h : entry -> xcoord) (sel : list entry) :
  forall (px : list xcoord) (py : list Q),
    List.length px = List.length py ->
    comprehension
      (annotation (px ++ map h sel) (py ++ map (fun _ => 0%Q) (map h sel)))
      (enumerate_from (List.length px) sel)
    = Return (map (annotated h) sel).
Proof.
  induction sel as [|e sel IH]; intros px py Hlen; [reflexivity|].
  cbn [enumerate_from comprehension map].
  assert (Ex : annotation (px ++ h e :: map h sel)
                 (py ++ 0%Q :: map (fun _ => 0%Q) (map h sel))
                 (List.length px, e)
               = Return (annotated h e)).
  { unfold annotation, index. cbn [fst snd].
    rewrite nth_error_app2 by lia. rewrite Nat.sub_diag. cbn [nth_error].
    rewrite Hlen at 1.
    rewrite nth_error_app2 by lia. rewrite Nat.sub_diag. reflexivity. }
  rewrite Ex.
  specialize (IH (px ++ [h e])%list (py ++ [0%Q])%list).
  rewrite !length_app in IH. cbn [List.length] in IH.
  rewrite !Nat.add_1_r in IH. rewrite <- !app_assoc in IH. cbn [app] in IH.
  rewrite IH by lia. reflexivity.
Qed.

Lemma annotations_all (h : entry -> xcoord) (sel : list entry) :
  comprehension
    (annotation (map h sel) (map (fun _ => 0%Q) (map h sel))) (enumerate sel)
  = Return (map (annotated h) sel).
Proof. exact (annotations_from h sel [] [] eq_refl). Qed.

Ltac shows_frame_and_plot :=
  match goal with
  | |- context [verbose ?o] =>
      destruct (verbose o), (vlines o);
      unfold bind, show, ret; cbn; rewrite <- ?app_assoc; reflexivity
  end.

Lemma display_laps_run (w : World) (o : Options) (t0 : datetime) :
  times (self w) <> [] ->
  (mark_elapsed_time o = true ->
   selected (show_stop o) (times (self w)) <> [] ->
   start_time (self w) = Some t0) ->
  display_laps o w =
  (Return tt,
   mkWorld (self w) (clock w) (stdout w)
     (displayed w
      ++ (if verbose o
          then [ShowFrame (tabulated o t0 (selected (show_stop o) (times (self w))))]
          else [])
      ++ [ShowPlot (drawn o t0 (selected (show_stop o) (times (self w))))])).
Proof.
  intros Hne Hstart.
  assert (Ht : truthy_list (times (self w)) = true)
    by (destruct (times (self w)); [congruence|reflexivity]).
  unfold display_laps, drawn, tabulated, bind at 1, get_self.
  rewrite Ht. cbn [negb].
  set (sel := selected (show_stop o) (times (self w))) in *.
  destruct (mark_elapsed_time o) eqn:Em.
  - unfold bind at 1, lift.
    rewrite (elapsed_seconds_selected _ t0 sel) by (intros H; now apply Hstart).
    unfold bind at 1.
    destruct (annotate o).
    + rewrite annotations_all, map_map.
      shows_frame_and_plot.
    + rewrite map_map. shows_frame_and_plot.
  - unfold bind at 1, ret.
    change (map (fun a : entry => Instant (snd a)) sel) with (map (x_of false t0) sel).
    unfold bind at 1.
    destruct (annotate o).
    + unfold lift. rewrite annotations_all, map_map.
      shows_frame_and_plot.
    + rewrite map_map. shows_frame_and_plot.
Qed.

Lemma display_laps_raises (w : World) (o : Options) :
  mark_elapsed_time o = true ->
  start_time (self w) = None ->
  selected (show_stop o) (times (self w)) <> [] ->
  display_laps o w = (Raise (TypeError msg_sub_none), w).
Proof.
  intros Hm Hs Hsel.
  assert (Ht : truthy_list (times (self w)) = true).
  { destruct (times (self w)); [|reflexivity].
    destruct (show_stop o); cbn in Hsel; congruence. }
  unfold display_laps, bind at 1, get_self.
  rewrite Ht, Hm, Hs. cbn [negb].
  destruct (selected (show_stop o) (times (self w))) as [|e sel]; [congruence|].
  reflexivity.
Qed.

(** C8, as the code has it: on a stopwatch whose [times] is not empty, and
    provided [start_time] is set whenever [mark_elapsed_time] holds and
    there is an entry to show, [display_laps] with [show_stop=False]
    tabulates and plots the entries of [times] without the last one,
    whatever its label, and with [show_stop=True] all of them: the frame has
    one row and the plot one point, one annotation and one vertical line per
    such entry. *)
Theorem display_laps_without_stop_drops_last
  (w : World) (o : Options) (t0 : datetime) :
  times (self w) <> [] ->
  let sel := if show_stop o then times (self w) else removelast (times (self w)) in
  (mark_elapsed_time o = true -> sel <> [] -> start_time (self w) = Some t0) ->
  display_laps o w =
  (Return tt,
   mkWorld (self w) (clock w) (stdout w)
     (displayed w
      ++ (if verbose o then [ShowFrame (tabulated o t0 sel)] else [])
      ++ [ShowPlot (drawn o t0 sel)])) /\
  (df_rows (tabulated o t0 sel) = sel /\
   List.length (plot_x (drawn o t0 sel)) = List.length sel) /\
  (forall l e, selected false (l ++ [e]) = l /\ selected true (l ++ [e]) = (l ++ [e])%list).
Proof.
  intros Hne. cbv zeta.
  change (if show_stop o then times (self w) else removelast (times (self w)))
    with (selected (show_stop o) (times (self w))).
  intros H. split; [|split].
  - now apply display_laps_run.
  - split; [reflexivity|]. cbn. apply length_map.
  - intros l e. split; [apply removelast_last|reflexivity].
Qed.

Lemma display_laps_without_stop_drops_last_witness :
  times (self (session true [CallLap None; CallLap (Some "Checkpoint"); CallStop] world0))
  = [("Start", 0); ("Lap1", 1); ("Checkpoint", 2); ("Stop", 3)] /\
  displayed
    (after (display_laps without_stop)
       (session true [CallLap None; CallLap (Some "Checkpoint"); CallStop] world0))
  = [ShowFrame
       (tabulated without_stop 0 [("Start", 0); ("Lap1", 1); ("Checkpoint", 2)]);
     ShowPlot
       (drawn without_stop 0 [("Start", 0); ("Lap1", 1); ("Checkpoint", 2)])].
Proof.
  split; [reflexivity|].
  destruct (display_laps_without_stop_drops_last
              (session true [CallLap None; CallLap (Some "Checkpoint"); CallStop] world0)
              without_stop 0) as [Run _].
  - vm_compute. discriminate.
  - intros _ _. reflexivity.
  - unfold after. rewrite Run. reflexivity.
Defined.

(** C8, as stated, fails: after [Stopwatch(auto_start=False)] and two laps,
    [times] without its last entry is not empty, yet [display_laps] with
    [show_stop=False] raises on the subtraction from the unset [start_time]
    and neither tabulates nor plots anything. *)
Lemma display_laps_unstarted_shows_nothing :
  let w := session false [CallLap None; CallLap None] world0 in
  times (self w) = [("Lap0", 0); ("Lap1", 1)] /\
  removelast (times (self w)) = [("Lap0", 0)] /\
  result (display_laps without_stop) w = Raise (TypeError msg_sub_none) /\
  displayed (after (display_laps without_stop) w) = [].
Proof. cbv zeta. repeat split. Qed.

(** ** [display_laps] reads only *)

Lemma preserves_self_ret {A} (a : A) : preserves_self (ret a).
Proof. intros w. reflexivity. Qed.

Lemma preserves_self_lift {A} (r : outcome A) : preserves_self (lift r).
Proof. intros w. reflexivity. Qed.

Lemma preserves_self_get : preserves_self get_self.
Proof. intros w. reflexivity. Qed.

Lemma preserves_self_print (line : string) : preserves_self (print line).
Proof. intros w. reflexivity. Qed.

Lemma preserves_self_show (x : shown) : preserves_self (show x).
Proof. intros w. reflexivity. Qed.

Lemma preserves_self_bind {A B} (m : M A) (k : A -> M B) :
  preserves_self m -> (forall a, preserves_self (k a)) ->
  preserves_self (bind m k).
Proof.
  intros Hm Hk w. unfold after, bind.
  specialize (Hm w). unfold after in Hm.
  destruct (m w) as [[a|e] w1]; cbn [snd] in *.
  - rewrite <- Hm. apply Hk.
  - exact Hm.
Qed.

Lemma preserves_self_if {A} (b : bool) (m1 m2 : M A) :
  preserves_self m1 -> preserves_self m2 ->
  preserves_self (if b then m1 else m2).
Proof. destruct b; auto. Qed.

Create HintDb frame discriminated.
#[local] Hint Resolve preserves_self_ret preserves_self_lift preserves_self_get
  preserves_self_print preserves_self_show preserves_self_if : frame.

(** C9: whatever the options, [display_laps] leaves [start_time],
    [stop_time] and [times] as they were, also when it raises. *)
Theorem display_laps_reads_only (o : Options) (w : World) :
  self (after (display_laps o) w) = self w /\
  start_time (self (after (display_laps o) w)) = start_time (self w) /\
  stop_time (self (after (display_laps o) w)) = stop_time (self w) /\
  times (self (after (display_laps o) w)) = times (self w).
Proof.
  assert (H : preserves_self (display_laps o)).
  { unfold display_laps.
    repeat first
      [ apply preserves_self_bind; [|intros ?]
      | apply preserves_self_if
      | solve [auto with frame] ]. }
  rewrite (H w). repeat split.
Qed.

(** C10: with [mark_elapsed_time=True] each x-coordinate is the entry's
    timestamp minus [start_time], taken without a test that [start_time] is
    set.  When it is set the subtraction is defined for every entry and
    [display_laps] returns; a [lap] on a watch built with
    [auto_start=False], or one right after [reset], gives an object whose
    [times] is not empty and whose [start_time] is [None], on which
    [display_laps] raises [TypeError]. *)
Theorem elapsed_subtraction_unguarded :
  (forall (t0 : datetime) (ts : list entry),
     comprehension (elapsed_seconds (Some t0)) ts
     = Return (map (fun e => Seconds (snd e - t0)) ts)) /\
  (forall (w : World) (o : Options) (t0 : datetime),
     start_time (self w) = Some t0 -> mark_elapsed_time o = true ->
     result (display_laps o) w = Return tt) /\
  (forall w0 : World,
     let w := session false [CallLap None] w0 in
     self w = mkStopwatch None [("Lap0", clock w0 0%nat)] None /\
     display_laps default_options w = (Raise (TypeError msg_sub_none), w)) /\
  (forall (auto_start : bool) (cs : list call) (w0 : World),
     let w1 := session auto_start cs w0 in
     let w := run [CallReset; CallLap None] w1 in
     self w = mkStopwatch None [("Lap0", clock w1 0%nat)] None /\
     display_laps default_options w = (Raise (TypeError msg_sub_none), w)).
Proof.
  split; [exact elapsed_seconds_set|]. split; [|split].
  - intros w o t0 Hs _. unfold result.
    destruct (times (self w)) as [|e ts] eqn:Et.
    + unfold display_laps, bind, get_self. rewrite Et. reflexivity.
    + rewrite (display_laps_run w o t0); [reflexivity | congruence | auto].
  - intros w0. cbv zeta. split; reflexivity.
  - intros auto_start cs w0. cbv zeta. split; reflexivity.
Qed.

Lemma elapsed_subtraction_unguarded_witness :
  result (display_laps default_options) (session true [CallLap None; CallStop] world0)
  = Return tt /\
  result (display_laps default_options) (session false [CallLap None] world0)
  = Raise (TypeError msg_sub_none).
Proof.
  destruct elapsed_subtraction_unguarded as (_ & Set_ & Unset & _).
  split.
  - apply (Set_ _ _ 0); reflexivity.
  - unfold result. rewrite (proj2 (Unset world0)). reflexivity.
Defined.

(** * Properties of whole sessions *)

(** ** Single calls, as equations *)

Lemma init_true_run (w : World) :
  __init__ true w =
  (Return tt,
   mkWorld (mkStopwatch (Some (clock w 0%nat)) [("Start", clock w 0%nat)] None)
     (tick (clock w)) (stdout w) (displayed w)).
Proof. reflexivity. Qed.

Lemma lap_run (label : option string) (w : World) :
  lap label w =
  (Return tt,
   mkWorld
     (mkStopwatch (start_time (self w))
        (times (self w)
         ++ [(label_or label ("Lap" ++ str_of_nat (List.length (times (self w)))),
              clock w 0%nat)])
        (stop_time (self w)))
     (tick (clock w)) (stdout w) (displayed w)).
Proof. reflexivity. Qed.

Lemma stop_run (w : World) (a : datetime) :
  start_time (self w) = Some a ->
  stop w =
  (Return tt,
   mkWorld
     (mkStopwatch (Some a) (times (self w) ++ [("Stop", clock w 0%nat)])
        (Some (clock w 0%nat)))
     (tick (clock w)) (stdout w) (displayed w)).
Proof.
  intros H. unfold stop, bind at 1, get_self. rewrite H. cbn. rewrite H.
  reflexivity.
Qed.

Lemma stop_idle (w : World) :
  start_time (self w) = None ->
  stop w =
  (Return tt,
   mkWorld (self w) (clock w) (stdout w ++ [msg_not_started]) (displayed w)).
Proof.
  intros H. unfold stop, bind at 1, get_self. rewrite H. reflexivity.
Qed.

Lemma start_refused (w : World) :
  truthy_list (times (self w)) = true ->
  start false w = (Raise (Exception msg_please_reset), w).
Proof.
  intros H. unfold start, bind at 1, get_self. rewrite H. reflexivity.
Qed.

(** X1: [Stopwatch()] with [auto_start=True] is a [start(force_reset=True)]
    on the new object: it takes one reading of the clock, which becomes
    [start_time] and the timestamp of the only entry, ["Start"]. *)
Theorem init_auto_start_is_start (w : World) :
  __init__ true w = start true w /\
  self (after (__init__ true) w)
  = mkStopwatch (Some (clock w 0%nat)) [("Start", clock w 0%nat)] None /\
  (forall n, clock (after (__init__ true) w) n = clock w (S n)).
Proof.
  rewrite init_true_run, (start_run true w) by apply andb_false_r.
  repeat split.
Qed.

(** ** What every session keeps *)

Lemma consistent_init (auto_start : bool) (w : World) :
  consistent (self (after (__init__ auto_start) w)).
Proof.
  split; [apply started_at_head_init|].
  destruct auto_start; intros t H; discriminate H.
Qed.

Lemma consistent_invoke (c : call) (w : World) :
  consistent (self w) -> consistent (self (after (invoke c) w)).
Proof.
  intros [Hhead Hstop].
  split; [now apply started_at_head_invoke|].
  destruct c as [auto_start|force_reset|label| |]; cbn [invoke].
  - apply consistent_init.
  - destruct (truthy_list (times (self w)) && negb force_reset) eqn:E.
    + destruct force_reset; [now rewrite andb_false_r in E|].
      rewrite andb_true_r in E. unfold after. now rewrite start_refused.
    + unfold after. rewrite start_run by exact E. cbn [snd self stop_time].
      destruct force_reset; [intros t H; discriminate H|].
      rewrite andb_true_r in E. intros t H.
      destruct (Hstop t H) as [[t0 Ht0] _].
      destruct (Hhead t0 Ht0) as [rest Hrest].
      rewrite Hrest in E. discriminate E.
  - unfold after. rewrite lap_run. cbn. intros t H.
    destruct (Hstop t H) as [Hs Hin]. split; [exact Hs|].
    apply in_or_app. now left.
  - destruct (start_time (self w)) as [a|] eqn:Ha; unfold after.
    + rewrite (stop_run w a Ha). cbn. intros t H. injection H as <-.
      split; [now exists a|]. apply in_or_app. right. now left.
    + rewrite (stop_idle w Ha). exact Hstop.
  - intros t H. discriminate H.
Qed.

Lemma consistent_run (cs : list call) (w : World) :
  consistent (self w) -> consistent (self (run cs w)).
Proof.
  revert w. induction cs as [|c cs IH]; intros w H; cbn [run].
  - exact H.
  - apply IH, consistent_invoke, H.
Qed.

Lemma consistent_session (auto_start : bool) (cs : list call) (w : World) :
  consistent (self (session auto_start cs w)).
Proof. apply consistent_run, consistent_init. Qed.

Lemma consistent_empty (s : Stopwatch) :
  consistent s -> times s = [] -> s = mkStopwatch None [] None.
Proof.
  intros [Hhead Hstop] Hts. destruct s as [st ts sp]. cbn in *. subst ts.
  assert (Hst : st = None).
  { destruct st as [t|]; [|reflexivity].
    destruct (Hhead t eq_refl) as [rest H]. discriminate H. }
  subst st. destruct sp as [t|]; [|reflexivity].
  destruct (Hstop t eq_refl) as [[t0 H] _]. discriminate H.
Qed.

(** X2: in every state of a session, once [stop_time] is set, [start_time]
    is set too, [times] holds the entry [("Stop", stop_time)], and
    [elapsed_time_] returns their difference. *)
Theorem stop_time_set_means_stopped
  (auto_start : bool) (cs : list call) (w0 : World) (t : datetime) :
  let w := session auto_start cs w0 in
  stop_time (self w) = Some t ->
  exists t0,
    start_time (self w) = Some t0 /\
    In ("Stop", t) (times (self w)) /\
    result elapsed_time_ w = Return (Some (t - t0)).
Proof.
  cbv zeta. intros H.
  destruct (consistent_session auto_start cs w0) as [_ Hstop].
  destruct (Hstop t H) as [[t0 Ht0] Hin].
  exists t0. repeat split; [exact Ht0 | exact Hin |].
  unfold result, elapsed_time_, bind, get_self. now rewrite H, Ht0.
Qed.

Lemma stop_time_set_means_stopped_witness :
  exists t0,
    start_time (self (session true [CallLap None; CallStop; CallLap None] world0))
    = Some t0 /\
    In ("Stop", 2)
       (times (self (session true [CallLap None; CallStop; CallLap None] world0))) /\
    result elapsed_time_ (session true [CallLap None; CallStop; CallLap None] world0)
    = Return (Some (2 - t0)).
Proof.
  apply (stop_time_set_means_stopped true [CallLap None; CallStop; CallLap None]
           world0 2).
  reflexivity.
Defined.

(** X3: in every state of a session, [times] is empty only on an object that
    is as new: an empty [times] comes with [start_time] and [stop_time] both
    [None]. *)
Theorem empty_times_means_fresh
  (auto_start : bool) (cs : list call) (w0 : World) :
  let w := session auto_start cs w0 in
  times (self w) = [] ->
  self w = mkStopwatch None [] None.
Proof.
  cbv zeta. intros H. apply consistent_empty; [apply consistent_session|exact H].
Qed.

Lemma empty_times_means_fresh_witness :
  self (session true [CallLap None; CallStop; CallReset] world0)
  = mkStopwatch None [] None.
Proof.
  apply (empty_times_means_fresh true [CallLap None; CallStop; CallReset] world0).
  reflexivity.
Defined.

(** X4: in every state of a session whose [times] is empty,
    [start(force_reset=False)] does exactly what [start(force_reset=True)]
    does; so within a session [force_reset=False] only ever adds the refusal
    on a used watch. *)
Theorem start_without_reset_on_empty_is_start
  (auto_start : bool) (cs : list call) (w0 : World) :
  let w := session auto_start cs w0 in
  times (self w) = [] ->
  start false w = start true w /\
  self (after (start false) w)
  = mkStopwatch (Some (clock w 0%nat)) [("Start", clock w 0%nat)] None.
Proof.
  cbv zeta. intros H.
  pose proof (consistent_empty _ (consistent_session auto_start cs w0) H) as E.
  unfold after.
  rewrite (start_run false) by (rewrite H; reflexivity).
  rewrite (start_run true) by apply andb_false_r.
  rewrite E. cbn. split; reflexivity.
Qed.

Lemma start_without_reset_on_empty_is_start_witness :
  start false (session true [CallStop; CallReset] world0)
  = start true (session true [CallStop; CallReset] world0) /\
  self (after (start false) (session true [CallStop; CallReset] world0))
  = mkStopwatch (Some 2) [("Start", 2)] None.
Proof.
  apply (start_without_reset_on_empty_is_start true [CallStop; CallReset] world0).
  reflexivity.
Defined.

(** ** Runs of calls *)

Lemma run_app (cs1 cs2 : list call) (w : World) :
  run (cs1 ++ cs2) w = run cs2 (run cs1 w).
Proof.
  revert w. induction cs1 as [|c cs1 IH]; intros w; cbn [run app].
  - reflexivity.
  - apply IH.
Qed.

Lemma map_seq_offset (c c' : nat -> datetime) (k m : nat) :
  (forall n, c' n = c (k + n)%nat) ->
  forall a, map c' (seq a m) = map c (seq (k + a) m).
Proof.
  intros H. induction m as [|m IH]; intros a; cbn [seq map].
  - reflexivity.
  - rewrite H, (IH (S a)), Nat.add_succ_r. reflexivity.
Qed.

Lemma lap_entries_length (ls : list (option string)) :
  forall n c, List.length (lap_entries n c ls) = List.length ls.
Proof.
  induction ls as [|l ls IH]; intros n c; cbn; [reflexivity|].
  now rewrite IH.
Qed.

Lemma lap_entries_timestamps (ls : list (option string)) :
  forall n c, map snd (lap_entries n c ls) = map c (seq 0 (List.length ls)).
Proof.
  induction ls as [|l ls IH]; intros n c; cbn; [reflexivity|].
  rewrite IH. f_equal.
  apply (map_seq_offset c (tick c) 1). reflexivity.
Qed.

Lemma run_laps (ls : list (option string)) :
  forall w,
    self (run (map CallLap ls) w)
    = mkStopwatch (start_time (self w))
        (times (self w)
         ++ lap_entries (List.length (times (self w))) (clock w) ls)
        (stop_time (self w)) /\
    (forall n, clock (run (map CallLap ls) w) n
               = clock w (List.length ls + n)%nat).
Proof.
  induction ls as [|l ls IH]; intros w; cbn [map run invoke lap_entries].
  - rewrite app_nil_r. destruct (self w). split; reflexivity.
  - unfold after. rewrite lap_run. cbn [snd].
    destruct (IH (mkWorld
                    (mkStopwatch (start_time (self w))
                       (times (self w)
                        ++ [(label_or l ("Lap" ++ str_of_nat
                                           (List.length (times (self w)))),
                             clock w 0%nat)])
                       (stop_time (self w)))
                    (tick (clock w)) (stdout w) (displayed w))) as [Hs Hc].
    split.
    + rewrite Hs. cbn [self start_time times stop_time clock].
      rewrite length_app, <- app_assoc. cbn [List.length app].
      rewrite Nat.add_1_r. reflexivity.
    + intros n. rewrite Hc. reflexivity.
Qed.

(** X5: [Stopwatch()], then laps with the labels [ls], then [stop()]: [times]
    is the ["Start"] entry, one entry per lap in call order and the ["Stop"]
    entry, [2 + len(ls)] in all; their timestamps are the first readings of
    the clock, one each; [elapsed_time_] is the last reading minus the
    first. *)
Theorem laps_between_start_and_stop (ls : list (option string)) (w0 : World) :
  let w := session true (map CallLap ls ++ [CallStop]) w0 in
  let n := List.length ls in
  times (self w)
  = (("Start", clock w0 0%nat)
     :: lap_entries 1 (tick (clock w0)) ls
     ++ [("Stop", clock w0 (S n))])%list /\
  List.length (times (self w)) = (2 + n)%nat /\
  map snd (times (self w)) = map (clock w0) (seq 0 (2 + n)) /\
  start_time (self w) = Some (clock w0 0%nat) /\
  stop_time (self w) = Some (clock w0 (S n)) /\
  result elapsed_time_ w = Return (Some (clock w0 (S n) - clock w0 0%nat)).
Proof.
  cbv zeta. unfold session. rewrite run_app. cbn [run invoke].
  set (w1 := after (__init__ true) w0).
  destruct (run_laps ls w1) as [Hs Hc].
  set (w2 := run (map CallLap ls) w1) in *.
  change (self w1)
    with (mkStopwatch (Some (clock w0 0%nat)) [("Start", clock w0 0%nat)] None)
    in Hs.
  cbn [start_time times stop_time List.length app] in Hs.
  assert (Hst : start_time (self w2) = Some (clock w0 0%nat))
    by (rewrite Hs; reflexivity).
  assert (Hnow : clock w2 0%nat = clock w0 (S (List.length ls))).
  { rewrite Hc, Nat.add_0_r. reflexivity. }
  unfold after, result. rewrite (stop_run w2 _ Hst). cbn [snd self times].
  rewrite Hnow, Hs. cbn [times start_time stop_time List.length app].
  assert (Hts : map snd
                  ((("Start", clock w0 0%nat)
                    :: lap_entries 1 (clock w1) ls
                    ++ [("Stop", clock w0 (S (List.length ls)))])%list)
                = map (clock w0) (seq 0 (2 + List.length ls))).
  { cbn [map snd]. rewrite map_app, lap_entries_timestamps. cbn [map snd].
    replace (2 + List.length ls)%nat with (S (List.length ls + 1)) by lia.
    cbn [seq map]. f_equal.
    rewrite seq_app, map_app. cbn [seq map]. f_equal.
    apply (map_seq_offset (clock w0) (clock w1) 1). reflexivity. }
  repeat split.
  - cbn [List.length]. rewrite length_app, lap_entries_length. cbn. lia.
  - exact Hts.
Qed.

(** ** The timeline of a call *)

(** What a call does to [times] and to the clock: it keeps the entries there
    are, or drops them all when it goes through [__init__]; then it appends
    at most one entry, stamped with the one reading it takes. *)
Lemma invoke_timeline (c : call) (w : World) :
  exists kept extra,
    times (self (after (invoke c) w)) = (kept ++ extra)%list /\
    (kept = times (self w) \/ (keeps_history c = false /\ kept = [])) /\
    (extra = [] \/ exists l, extra = [(l, clock w 0%nat)]) /\
    (forall n, clock (after (invoke c) w) n
               = clock w (List.length extra + n)%nat).
Proof.
  destruct c as [auto_start|force_reset|label| |]; cbn [invoke keeps_history].
  - exists []. destruct auto_start.
    + exists [("Start", clock w 0%nat)]. unfold after. rewrite init_true_run.
      repeat split; eauto.
    + exists []. repeat split; eauto.
  - destruct force_reset.
    + exists [], [("Start", clock w 0%nat)]. unfold after.
      rewrite start_run by apply andb_false_r. repeat split; eauto.
    + exists (times (self w)).
      destruct (truthy_list (times (self w))) eqn:E; unfold after.
      * exists []. rewrite start_refused by exact E. rewrite app_nil_r.
        repeat split; eauto.
      * exists [("Start", clock w 0%nat)].
        rewrite start_run by (rewrite E; reflexivity). repeat split; eauto.
  - exists (times (self w)). eexists. unfold after. rewrite lap_run.
    repeat split; eauto.
  - exists (times (self w)).
    destruct (start_time (self w)) as [a|] eqn:Ha; unfold after.
    + exists [("Stop", clock w 0%nat)]. rewrite (stop_run w a Ha).
      repeat split; eauto.
    + exists []. rewrite (stop_idle w Ha). rewrite app_nil_r.
      repeat split; eauto.
  - exists [], []. repeat split; eauto.
Qed.

(** X6: a run of [start(force_reset=False)], [lap] and [stop] calls, refused
    or not, never removes, alters or reorders an entry: [times] before the
    run is a prefix of [times] after it, and the entries added carry the
    readings the run took from the clock, one reading per entry, in order. *)
Theorem history_only_grows (cs : list call) (w : World) :
  forallb keeps_history cs = true ->
  exists extra,
    times (self (run cs w)) = (times (self w) ++ extra)%list /\
    map snd extra = map (clock w) (seq 0 (List.length extra)) /\
    (forall n, clock (run cs w) n = clock w (List.length extra + n)%nat).
Proof.
  revert w. induction cs as [|c cs IH]; intros w Hcs; cbn [run].
  - exists []. rewrite app_nil_r. repeat split.
  - cbn [forallb] in Hcs. apply andb_true_iff in Hcs as [Hc Hcs].
    destruct (invoke_timeline c w) as (kept & e1 & Hts & Hkept & Hshape & Hclock).
    destruct Hkept as [->|[Hno _]]; [|congruence].
    assert (He1 : map snd e1 = map (clock w) (seq 0 (List.length e1)))
      by (destruct Hshape as [->|[l ->]]; reflexivity).
    destruct (IH (after (invoke c) w) Hcs) as (e2 & Hts2 & He2 & Hclock2).
    exists (e1 ++ e2)%list. repeat split.
    + rewrite Hts2, Hts, app_assoc. reflexivity.
    + unfold entry in *.
      rewrite map_app, length_app, seq_app, map_app, He1, He2. f_equal.
      rewrite (map_seq_offset (clock w) _ (List.length e1) _ Hclock 0%nat).
      rewrite Nat.add_0_r. reflexivity.
    + intros n. rewrite Hclock2, Hclock, length_app, Nat.add_assoc.
      reflexivity.
Qed.

Lemma history_only_grows_witness :
  exists extra,
    times (self (run [CallLap None; CallStart false; CallStop]
                   (session true [] world0)))
    = (times (self (session true [] world0)) ++ extra)%list /\
    map snd extra
    = map (clock (session true [] world0)) (seq 0 (List.length extra)) /\
    (forall n,
       clock (run [CallLap None; CallStart false; CallStop]
                (session true [] world0)) n
       = clock (session true [] world0) (List.length extra + n)%nat).
Proof.
  apply (history_only_grows [CallLap None; CallStart false; CallStop]
           (session true [] world0)).
  reflexivity.
Defined.

(** ** Chronological order *)

Lemma monotone_from (c : nat -> datetime) (k : nat) (c' : nat -> datetime) :
  monotone c -> (forall n, c' n = c (k + n)%nat) -> monotone c'.
Proof.
  intros Hc H n. rewrite !H, Nat.add_succ_r. apply Hc.
Qed.

Lemma monotone_le (c : nat -> datetime) (k : nat) :
  monotone c -> c 0%nat <= c k.
Proof.
  intros Hc. induction k as [|k IH]; [lia|].
  specialize (Hc k). lia.
Qed.

Lemma chronological_snoc (ts : list entry) (e : entry) :
  chronological ts ->
  Forall (fun e' => snd e' <= snd e) ts ->
  chronological (ts ++ [e]).
Proof.
  unfold chronological. induction ts as [|a ts IH]; intros Hs Hle; cbn.
  - constructor; constructor.
  - cbn in Hs. apply StronglySorted_inv in Hs as [Hs Ha].
    apply Forall_cons_iff in Hle as [Hae Hle].
    constructor; [now apply IH|].
    rewrite map_app, Forall_app. split; [exact Ha|].
    cbn. constructor; [exact Hae|constructor].
Qed.

Lemma in_order_invoke (c : call) (w : World) :
  in_order w -> in_order (after (invoke c) w).
Proof.
  intros (Hmono & Hsorted & Hbound).
  destruct (invoke_timeline c w) as (kept & extra & Hts & Hkept & Hshape & Hclock).
  assert (Hk : chronological kept /\ Forall (fun e => snd e <= clock w 0%nat) kept).
  { destruct Hkept as [->|[_ ->]]; [now split|].
    split; constructor. }
  destruct Hk as [Hks Hkb].
  assert (Hmono' : monotone (clock (after (invoke c) w)))
    by (eapply monotone_from; eassumption).
  assert (Hnext : clock w 0%nat <= clock (after (invoke c) w) 0%nat).
  { rewrite Hclock, Nat.add_0_r. now apply monotone_le. }
  split; [exact Hmono'|]. rewrite Hts.
  destruct Hshape as [->|[l ->]].
  - rewrite app_nil_r. split; [exact Hks|].
    eapply Forall_impl; [|exact Hkb]. cbn. intros e He. lia.
  - split; [now apply chronological_snoc|].
    rewrite Forall_app. split.
    + eapply Forall_impl; [|exact Hkb]. cbn. intros e He. lia.
    + constructor; [exact Hnext|constructor].
Qed.

Lemma in_order_run (cs : list call) (w : World) :
  in_order w -> in_order (run cs w).
Proof.
  revert w. induction cs as [|c cs IH]; intros w H; cbn [run].
  - exact H.
  - apply IH, in_order_invoke, H.
Qed.

Lemma in_order_session (auto_start : bool) (cs : list call) (w0 : World) :
  monotone (clock w0) -> in_order (session auto_start cs w0).
Proof.
  intros Hmono. apply in_order_run.
  destruct auto_start; unfold after.
  - rewrite init_true_run. cbn. unfold in_order. cbn.
    split; [intros n; apply Hmono|].
    split; [constructor; constructor|].
    constructor; [apply (Hmono 0%nat)|constructor].
  - cbn. unfold in_order. cbn. split; [exact Hmono|]. split; constructor.
Qed.

(** In a consistent, chronological object no entry precedes [start_time]. *)
Lemma started_first (s : Stopwatch) (t0 : datetime) :
  consistent s -> chronological (times s) -> start_time s = Some t0 ->
  forall e, In e (times s) -> t0 <= snd e.
Proof.
  intros [Hhead _] Hs Ht0 e He.
  destruct (Hhead t0 Ht0) as [rest Hrest].
  unfold chronological in Hs. rewrite Hrest in Hs, He. cbn in Hs.
  apply StronglySorted_inv in Hs as [_ Hall].
  destruct He as [<-|He]; [cbn; lia|].
  rewrite Forall_forall in Hall. apply Hall, in_map, He.
Qed.

(** X7: if the clock never goes back, then in every state of a session
    [times] is in chronological order, [stop_time] is not before
    [start_time], and what [elapsed_time_] returns is not negative. *)
Theorem monotone_clock_orders_times
  (auto_start : bool) (cs : list call) (w0 : World) :
  let w := session auto_start cs w0 in
  monotone (clock w0) ->
  chronological (times (self w)) /\
  (forall t0 t,
     start_time (self w) = Some t0 -> stop_time (self w) = Some t -> t0 <= t) /\
  (forall d, result elapsed_time_ w = Return (Some d) -> 0 <= d).
Proof.
  cbv zeta. intros Hmono.
  destruct (in_order_session auto_start cs w0 Hmono) as (_ & Hsorted & _).
  pose proof (consistent_session auto_start cs w0) as Hcons.
  assert (Hle : forall t0 t,
             start_time (self (session auto_start cs w0)) = Some t0 ->
             stop_time (self (session auto_start cs w0)) = Some t -> t0 <= t).
  { intros t0 t Ht0 Ht.
    destruct (proj2 Hcons t Ht) as [_ Hin].
    apply (started_first _ t0 Hcons Hsorted Ht0 _ Hin). }
  split; [exact Hsorted|]. split; [exact Hle|].
  intros d. unfold result, elapsed_time_, bind, get_self. cbn [fst].
  destruct (stop_time (self (session auto_start cs w0))) as [t|] eqn:Et;
    [|discriminate].
  destruct (start_time (self (session auto_start cs w0))) as [t0|] eqn:Et0;
    [|discriminate].
  cbn. intros H. injection H as <-. specialize (Hle t0 t eq_refl eq_refl). lia.
Qed.

Lemma monotone_clock_orders_times_witness :
  chronological
    (times (self (session true [CallLap None; CallStop; CallLap None] world0))) /\
  (forall d,
     result elapsed_time_ (session true [CallLap None; CallStop; CallLap None] world0)
     = Return (Some d) -> 0 <= d).
Proof.
  destruct (monotone_clock_orders_times
              true [CallLap None; CallStop; CallLap None] world0)
    as (Hs & _ & Hd).
  - intros n. cbn [world0 clock]. lia.
  - split; [exact Hs|exact Hd].
Defined.

(** ** What [display_laps] shows of a session *)

Lemma In_removelast {A} (l : list A) (a : A) :
  In a (removelast l) -> In a l.
Proof.
  induction l as [|b l IH]; cbn; [easy|].
  destruct l as [|b' l]; [easy|].
  intros [H|H]; [now left|right; now apply IH].
Qed.

Lemma In_selected (show_stop : bool) (ts : list entry) (e : entry) :
  In e (selected show_stop ts) -> In e ts.
Proof.
  destruct show_stop; cbn; [easy|apply In_removelast].
Qed.

(** X8: in every state of a session with a clock that never goes back and
    [start_time] set, [display_laps] with [mark_elapsed_time=True] returns
    and shows a plot none of whose x-coordinates is negative; with
    [show_stop=True] the first one is 0, the ["Start"] entry. *)
Theorem display_laps_elapsed_from_zero
  (auto_start : bool) (cs : list call) (w0 : World) (o : Options) (t0 : datetime) :
  let w := session auto_start cs w0 in
  monotone (clock w0) ->
  start_time (self w) = Some t0 ->
  mark_elapsed_time o = true ->
  let sel := selected (show_stop o) (times (self w)) in
  display_laps o w =
  (Return tt,
   mkWorld (self w) (clock w) (stdout w)
     (displayed w
      ++ (if verbose o then [ShowFrame (tabulated o t0 sel)] else [])
      ++ [ShowPlot (drawn o t0 sel)])) /\
  Forall (fun x => exists td, x = Seconds td /\ 0 <= td) (plot_x (drawn o t0 sel)) /\
  (show_stop o = true -> hd_error (plot_x (drawn o t0 sel)) = Some (Seconds 0)).
Proof.
  cbv zeta. intros Hmono Ht0 Hmark.
  set (w := session auto_start cs w0) in *.
  pose proof (consistent_session auto_start cs w0) as Hcons. fold w in Hcons.
  destruct (in_order_session auto_start cs w0 Hmono) as (_ & Hsorted & _).
  fold w in Hsorted.
  destruct (proj1 Hcons t0 Ht0) as [rest Hrest].
  split; [|split].
  - apply display_laps_run; [rewrite Hrest; discriminate | intros _ _; exact Ht0].
  - cbn [drawn plot_x]. rewrite Hmark. apply Forall_forall. intros x Hx.
    apply in_map_iff in Hx as (e & <- & He).
    exists (snd e - t0). split; [reflexivity|].
    apply In_selected in He.
    pose proof (started_first _ t0 Hcons Hsorted Ht0 e He). lia.
  - intros Hshow. cbn [drawn plot_x]. rewrite Hmark, Hshow, Hrest. cbn.
    now rewrite Z.sub_diag.
Qed.

Lemma display_laps_elapsed_from_zero_witness :
  plot_x (drawn default_options 0
            (selected true
               (times (self (session true [CallLap None; CallStop] world0)))))
  = [Seconds 0; Seconds 1; Seconds 2] /\
  result (display_laps default_options)
    (session true [CallLap None; CallStop] world0) = Return tt.
Proof.
  split; [reflexivity|].
  destruct (display_laps_elapsed_from_zero
              true [CallLap None; CallStop] world0 default_options 0)
    as (Run & _).
  - intros n. cbn [world0 clock]. lia.
  - reflexivity.
  - reflexivity.
  - unfold result. rewrite Run. reflexivity.
Defined.


(** ** Automatic labels *)

Lemma str_of_nat_injective : Injective str_of_nat.
Proof.
  intros a b H.
  pose proof (str_of_nat_reads_back a) as Ha.
  rewrite H, str_of_nat_reads_back in Ha. now injection Ha.
Qed.

Lemma auto_label_injective : Injective (fun i => "Lap" ++ str_of_nat i).
Proof.
  intros a b H. cbn in H. injection H as H. now apply str_of_nat_injective.
Qed.

Lemma lap_entries_auto_labels (k : nat) :
  forall n c,
    map fst (lap_entries n c (repeat None k))
    = map (fun i => "Lap" ++ str_of_nat i) (seq n k).
Proof.
  induction k as [|k IH]; intros n c; cbn [repeat lap_entries map seq label_or fst].
  - reflexivity.
  - now rewrite IH.
Qed.

(** X10: [k] calls of [lap()] without a label, in a row, append [k]
    entries whose labels are ["Lap"] followed by the positions they take
    in [times], counted from 0; these labels are pairwise distinct. *)
Theorem unlabelled_laps_get_distinct_labels (k : nat) (w : World) :
  exists new,
    times (self (run (repeat (CallLap None) k) w))
    = (times (self w) ++ new)%list /\
    map fst new
    = map (fun i => "Lap" ++ str_of_nat i)
        (seq (List.length (times (self w))) k) /\
    NoDup (map fst new).
Proof.
  exists (lap_entries (List.length (times (self w))) (clock w) (repeat None k)).
  replace (repeat (CallLap None) k) with (map CallLap (repeat None k))
    by apply map_repeat.
  destruct (run_laps (repeat None k) w) as [Hs _].
  rewrite Hs, lap_entries_auto_labels. cbn [times].
  repeat split.
  apply Injective_map_NoDup; [apply auto_label_injective|apply seq_NoDup].
Qed.
